(** * System resource monitor: a shallow embedding of [tools/system_monitor.py]

    The development follows the Python module function by function.

    - Python exceptions are values of [exn]; a computation that may raise
      lives in the error monad [res].  Only instances of Python's
      [Exception] class are modelled, so [except Exception] and a bare
      [except:] catch the same things here.
    - Python floats are modelled by exact rationals ([Q]): division is the
      exact quotient, and the binary64 rounding of a quotient is not
      modelled.  (Dividing by 1024 is exact in binary64 for every byte count
      below 2^53.)  [round(x, 1)] and the [.1f] format round to the nearest
      tenth, ties to even, as CPython does.
    - A value produced by [round(x, 1)] is stored as its number of tenths
      (a [Z]): [125] stands for [12.5].
    - Dictionaries are [gmap string pyval].
    - Everything the module asks of the operating system or of [psutil] is
      a field of the record [host]. *)

From Stdlib Require Import ZArith QArith Qround Lia List Bool Ascii String.
From Stdlib Require Import Sorting.Sorted Sorting.Permutation DecimalString.
From stdpp Require Import base option strings gmap.

Import ListNotations.
Local Open Scope Z_scope.
Local Open Scope string_scope.

(** ** Exceptions and the error monad *)

Inductive exn : Type :=
| NoSuchProcess
| AccessDenied
| ZombieProcess
| KeyError (key : string)
| TypeError
| AttributeError
| ZeroDivisionError
| ImportError
| IndexError
| ValueError
| OSError
| PermissionError.

Inductive res (A : Type) : Type :=
| Ok (a : A)
| Raise (e : exn).
Arguments Ok {A} a.
Arguments Raise {A} e.

#[global] Instance res_ret : MRet res := fun A a => Ok a.

#[global] Instance res_bind : MBind res := fun A B k m =>
  match m with
  | Ok a => k a
  | Raise e => Raise e
  end.

(** [try: m except handled: h] runs [h] when [m] raises an exception that
    [handled] selects, and lets any other exception through. *)
Definition try_except {A : Type} (m : res A) (handled : exn -> bool)
    (h : exn -> res A) : res A :=
  match m with
  | Ok a => Ok a
  | Raise e => if handled e then h e else Raise e
  end.

(** [except Exception] and the bare [except:]. *)
Definition any_exception (e : exn) : bool := true.

(** [except (psutil.NoSuchProcess, psutil.AccessDenied, psutil.ZombieProcess)]. *)
Definition psutil_process_error (e : exn) : bool :=
  match e with
  | NoSuchProcess | AccessDenied | ZombieProcess => true
  | _ => false
  end.

(** ** Numbers *)

(** [x < y] on numbers. *)
Definition Qltb (x y : Q) : bool :=
  match Qcompare x y with
  | Lt => true
  | _ => false
  end.

(** The integer nearest to [q], ties to the even one. *)
Definition round_half_even (q : Q) : Z :=
  let f := Qfloor q in
  match Qcompare (q - inject_Z f) (1 # 2) with
  | Lt => f
  | Gt => f + 1
  | Eq => if Z.even f then f else f + 1
  end.

(** [round(x, 1)], as a number of tenths. *)
Definition round1 (x : Q) : Z := round_half_even (x * 10).

Definition string_of_Z (n : Z) : string := NilZero.string_of_int (Z.to_int n).

(** A number of tenths printed with one decimal place. *)
Definition tenths_to_string (negative : bool) (t : Z) : string :=
  (if negative then "-" else "")
    ++ string_of_Z (Z.abs t / 10) ++ "." ++ string_of_Z (Z.abs t mod 10).

(** The format [f"{x:.1f}"]. *)
Definition fmt1 (x : Q) : string :=
  tenths_to_string (Qltb x 0) (round1 x).

(** ** Strings *)

Definition lower_ascii (c : ascii) : ascii :=
  let n := nat_of_ascii c in
  if (65 <=? n)%nat && (n <=? 90)%nat then ascii_of_nat (n + 32) else c.

(** [s.lower()] *)
Fixpoint lower (s : string) : string :=
  match s with
  | EmptyString => EmptyString
  | String c rest => String (lower_ascii c) (lower rest)
  end.

(** [s.endswith(suffix)] *)
Definition endswith (s suffix : string) : bool :=
  let n := String.length s in
  let k := String.length suffix in
  (k <=? n)%nat && String.eqb (substring (n - k) k s) suffix.

(** [s[:-k]] for a string of at least [k] characters. *)
Definition drop_last (k : nat) (s : string) : string :=
  substring 0 (String.length s - k) s.

(** [x in [a, b, ...]] on strings. *)
Definition str_in (x : string) (l : list string) : bool :=
  existsb (String.eqb x) l.

(** ** [format_bytes] *)

Definition units : list string := ["B"; "KB"; "MB"; "GB"; "TB"].

(** The [for unit in ...] loop: the value and the unit label that the
    [return] inside the loop, or the one after it, prints. *)
Fixpoint format_bytes_loop (us : list string) (bytes_value : Q) : Q * string :=
  match us with
  | unit :: rest =>
      if Qltb bytes_value 1024 then (bytes_value, unit)
      else format_bytes_loop rest (bytes_value / 1024)
  | [] => (bytes_value, "PB")
  end.

Definition format_bytes (bytes_value : Z) : string :=
  let '(v, unit) := format_bytes_loop units (inject_Z bytes_value) in
  fmt1 v ++ " " ++ unit.

(** The unit label [format_bytes] chooses. *)
Definition format_bytes_unit (bytes_value : Z) : string :=
  snd (format_bytes_loop units (inject_Z bytes_value)).

(** ** Values and the host

    [pyval] are the values the dictionaries of the module hold. *)

Inductive pyval : Type :=
| VNone
| VInt (n : Z)
| VFloat (x : Q)
| VStr (s : string).

Definition of_optional_int (o : option Z) : pyval :=
  match o with
  | Some n => VInt n
  | None => VNone
  end.

(** [d[key]] *)
Definition getitem (d : gmap string pyval) (key : string) : res pyval :=
  match d !! key with
  | Some v => Ok v
  | None => Raise (KeyError key)
  end.

(** [psutil.virtual_memory()] and [psutil.swap_memory()] *)
Record svmem : Type := {
  vm_total : Z;
  vm_available : Z;
  vm_used : Z;
  vm_percent : Q
}.

Record sswap : Type := {
  swap_total : Z;
  swap_used : Z;
  swap_percent : Q
}.

(** An element of [psutil.disk_partitions()] *)
Record sdiskpart : Type := {
  device : string;
  mountpoint : string
}.

(** [psutil.disk_usage(path)] and [shutil.disk_usage(path)] *)
Record sdiskusage : Type := {
  du_total : Z;
  du_used : Z;
  du_free : Z
}.

(** [proc.info] of a process that [psutil.process_iter] yields, with the
    attributes the module asks for. [psutil] fills an attribute it may not
    read with [None]. *)
Record proc_info : Type := {
  info_pid : Z;
  info_name : option string;
  info_cpu_percent : option Q;
  info_memory_rss : option Z
}.

(** What the module reads from its environment. A field of type [res _]
    is a call that may raise. *)
Record host : Type := {
  HAS_PSUTIL : bool;
  system : string;
  os_cpu_count : option Z;
  platform_platform : string;
  platform_python_version : string;
  platform_architecture : string;
  psutil_cpu_percent_percpu : res unit;
  psutil_cpu_percent : res Q;
  psutil_cpu_count : res (option Z);
  psutil_cpu_count_physical : res (option Z);
  (** [wmi.WMI().Win32_Processor()[0]]: current and maximal clock speed *)
  wmi_processor : res (Z * Z);
  (** [psutil.cpu_freq()]: the current frequency, or [None] *)
  psutil_cpu_freq : res (option Q);
  (** [psutil.sensors_temperatures()]: the current temperatures of each
      sensor group, in the order of the dictionary *)
  psutil_sensors_temperatures : res (list (list Q));
  psutil_virtual_memory : res svmem;
  psutil_swap_memory : res sswap;
  psutil_disk_partitions : res (list sdiskpart);
  psutil_disk_usage : string -> res sdiskusage;
  os_path_abspath_dot : res string;
  shutil_disk_usage : string -> res sdiskusage;
  (** The first [psutil.process_iter(...)] loop: for each process, what
      [proc.cpu_percent(interval=0.0)] does. *)
  process_iter_first : res (list (res unit));
  (** The second loop: for each process, its [proc.info], or the exception
      that the process raises when the [with] block is entered. *)
  process_iter_second : res (list (res proc_info))
}.

(** ** [get_cpu_info] *)

(** The format [f"{x:.0f}"]. *)
Definition fmt0 (x : Q) : string := string_of_Z (round_half_even x).

(** [a / b] on numbers that may be [None]. *)
Definition truediv (a : option Q) (b : option Q) : res Q :=
  match a, b with
  | Some x, Some y => if Qeq_bool y 0 then Raise ZeroDivisionError else Ok (x / y)%Q
  | _, _ => Raise TypeError
  end.

(** Lines 41 to 50: the frequency string. *)
Definition cpu_frequency (h : host) : res string :=
  if String.eqb (system h) "Windows" then
    '(current_freq, max_freq) ← wmi_processor h;
    Ok (fmt0 (inject_Z current_freq) ++ " MHz (Max: " ++ string_of_Z max_freq ++ " MHz)")
  else
    cpu_freq ← psutil_cpu_freq h;
    Ok (match cpu_freq with
        | Some current => fmt0 current ++ " MHz"
        | None => "Unknown"
        end).

(** Lines 63 to 67: the dictionary with the temperature added, when there is one. *)
Definition cpu_temperature (h : host) (info : gmap string pyval) : res (gmap string pyval) :=
  if String.eqb (system h) "Windows" then
    temps ← psutil_sensors_temperatures h;
    match temps with
    | [] => Ok info
    | [] :: _ => Raise IndexError
    | (temp :: _) :: _ => Ok (<["temperature" := VStr (fmt0 temp ++ "°C")]> info)
    end
  else Ok info.

(** Lines 31 to 71: the body of the outer [try]. *)
Definition cpu_info_psutil (h : host) : res (gmap string pyval) :=
  _ ← psutil_cpu_percent_percpu h;
  cpu_percent ← psutil_cpu_percent h;
  logical_cores ← psutil_cpu_count h;
  physical ← psutil_cpu_count_physical h;
  let physical_cores :=
    match physical with
    | None | Some 0 => logical_cores
    | Some n => Some n
    end in
  freq_str ← try_except (cpu_frequency h) any_exception (λ _, Ok "Unknown");
  let info : gmap string pyval :=
    <["usage" := VFloat cpu_percent]>
      (<["logical_cores" := of_optional_int logical_cores]>
        (<["physical_cores" := of_optional_int physical_cores]>
          (<["frequency" := VStr freq_str]> ∅))) in
  try_except (cpu_temperature h info) any_exception (λ _, Ok info).

(** Lines 76 to 80 *)
Definition cpu_info_fallback (h : host) : gmap string pyval :=
  <["usage" := VStr "Unknown"]>
    (<["cores" := of_optional_int (os_cpu_count h)]>
      (<["frequency" := VStr "Unknown"]> ∅)).

(** A [try] block that returns from the function when it succeeds and
    falls through ([pass]) on any exception. *)
Definition return_or_pass {A : Type} (m : res A) : res (option A) :=
  try_except (a ← m; Ok (Some a)) any_exception (λ _, Ok None).

Definition get_cpu_info (h : host) : res (gmap string pyval) :=
  returned ← (if HAS_PSUTIL h then return_or_pass (cpu_info_psutil h) else Ok None);
  match returned with
  | Some info => Ok info
  | None => Ok (cpu_info_fallback h)
  end.

(** ** [get_memory_info] *)

Definition memory_info_psutil (h : host) : res (gmap string pyval) :=
  memory ← psutil_virtual_memory h;
  swap ← psutil_swap_memory h;
  Ok (<["total" := VStr (format_bytes (vm_total memory))]>
       (<["available" := VStr (format_bytes (vm_available memory))]>
         (<["used" := VStr (format_bytes (vm_used memory))]>
           (<["percent" := VFloat (vm_percent memory)]>
             (<["swap_total" := VStr (format_bytes (swap_total swap))]>
               (<["swap_used" := VStr (format_bytes (swap_used swap))]>
                 (<["swap_percent" := VFloat (swap_percent swap)]> ∅))))))).

Definition memory_info_fallback : gmap string pyval :=
  <["total" := VStr "Unknown"]>
    (<["available" := VStr "Unknown"]>
      (<["used" := VStr "Unknown"]>
        (<["percent" := VStr "Unknown"]>
          (<["swap_total" := VStr "Unknown"]>
            (<["swap_used" := VStr "Unknown"]>
              (<["swap_percent" := VStr "Unknown"]> ∅)))))).

Definition get_memory_info (h : host) : res (gmap string pyval) :=
  returned ← (if HAS_PSUTIL h then return_or_pass (memory_info_psutil h) else Ok None);
  match returned with
  | Some info => Ok info
  | None => Ok memory_info_fallback
  end.

(** ** [get_disk_info] *)

(** The dictionary appended for a volume. The percentage divides by the
    total, which raises when the total is zero. *)
Definition disk_entry (dev mount : string) (usage : sdiskusage) : res (gmap string pyval) :=
  ratio ← truediv (Some (inject_Z (du_used usage))) (Some (inject_Z (du_total usage)));
  Ok (<["device" := VStr dev]>
       (<["mountpoint" := VStr mount]>
         (<["total" := VStr (format_bytes (du_total usage))]>
           (<["used" := VStr (format_bytes (du_used usage))]>
             (<["free" := VStr (format_bytes (du_free usage))]>
               (<["percent" := VFloat (ratio * 100)]> ∅)))))).

(** Lines 123 to 131: the body of the [try] inside the loop. *)
Definition probe_partition (h : host) (partition : sdiskpart) : res (gmap string pyval) :=
  usage ← psutil_disk_usage h (mountpoint partition);
  disk_entry (device partition) (mountpoint partition) usage.

(** Lines 121 to 133: a partition whose probe raises is skipped ([continue]). *)
Fixpoint disk_loop (h : host) (partitions : list sdiskpart)
    (disk_info : list (gmap string pyval)) : list (gmap string pyval) :=
  match partitions with
  | [] => disk_info
  | partition :: rest =>
      match probe_partition h partition with
      | Ok entry => disk_loop h rest (disk_info ++ [entry])%list
      | Raise _ => disk_loop h rest disk_info
      end
  end.

(** Lines 118 to 135. The list is built in place, so what was appended
    before an exception stays; here only [disk_partitions] can raise,
    before anything is appended. *)
Definition disk_info_psutil (h : host) : list (gmap string pyval) :=
  if HAS_PSUTIL h then
    match psutil_disk_partitions h with
    | Ok partitions => disk_loop h partitions []
    | Raise _ => []
    end
  else [].

(** Lines 139 to 153: the entry for the volume of the working directory. *)
Definition disk_info_fallback (h : host) : res (list (gmap string pyval)) :=
  current ← os_path_abspath_dot h;
  if String.eqb (system h) "Windows" then
    usage ← shutil_disk_usage h current;
    entry ← disk_entry "C:" current usage;
    Ok [entry]
  else Ok [].

Definition get_disk_info (h : host) : res (list (gmap string pyval)) :=
  let disk_info := disk_info_psutil h in
  match disk_info with
  | [] => try_except (disk_info_fallback h) any_exception (λ _, Ok disk_info)
  | _ :: _ => Ok disk_info
  end.

(** ** [get_top_processes] *)

Record ProcessInfo : Type := {
  name : string;
  cpu_percent : Z;   (* tenths of a percent *)
  memory_mb : Z;     (* tenths of a megabyte *)
  pid : Z
}.

Definition denylist : list string :=
  ["system"; "system idle process"; "system interrupts"].

(** [x.attr] and [x.method()] on a value that may be [None]. *)
Definition attribute {A : Type} (o : option A) : res A :=
  match o with
  | Some a => Ok a
  | None => Raise AttributeError
  end.

(** Lines 181 to 183: the display name. *)
Definition normalized_name (s : string) : string :=
  if endswith s ".exe" then drop_last 4 s else s.

(** Lines 180 to 200: the body of the [with] block. [None] is the
    [continue] of line 193. *)
Definition process_entry (h : host) (info : proc_info) : res (option ProcessInfo) :=
  raw_name ← attribute (info_name info);
  let name := normalized_name raw_name in
  rss ← attribute (info_memory_rss info);
  let memory_mb := (inject_Z rss / 1024 / 1024)%Q in
  cpu_count ← psutil_cpu_count h;
  cpu_percent ← truediv (info_cpu_percent info) (inject_Z <$> cpu_count);
  if str_in (lower name) denylist then Ok None
  else Ok (Some {| name := name;
                   cpu_percent := round1 cpu_percent;
                   memory_mb := round1 memory_mb;
                   pid := info_pid info |}).

(** Lines 166 to 171 *)
Fixpoint first_pass (procs : list (res unit)) : res unit :=
  match procs with
  | [] => Ok tt
  | proc :: rest =>
      _ ← try_except proc psutil_process_error (λ _, Ok tt);
      first_pass rest
  end.

(** Lines 177 to 203 *)
Fixpoint second_pass (h : host) (procs : list (res proc_info))
    (processes : list ProcessInfo) : res (list ProcessInfo) :=
  match procs with
  | [] => Ok processes
  | proc :: rest =>
      appended ← try_except (info ← proc; process_entry h info)
                   psutil_process_error (λ _, Ok None);
      second_pass h rest
        match appended with
        | Some entry => (processes ++ [entry])%list
        | None => processes
        end
  end.

(** [processes.sort(key=lambda x: x.cpu_percent, reverse=True)]: Python's
    sort is stable, also with [reverse=True], so entries with equal keys
    keep the order they had. *)
Fixpoint sort_insert (x : ProcessInfo) (l : list ProcessInfo) : list ProcessInfo :=
  match l with
  | [] => [x]
  | y :: rest =>
      if (cpu_percent y <=? cpu_percent x)%Z then x :: l
      else y :: sort_insert x rest
  end.

Definition sort_by_cpu_desc (l : list ProcessInfo) : list ProcessInfo :=
  fold_right sort_insert [] l.

(** [l[:limit]]: a negative [limit] counts from the end. *)
Definition slice_to {A : Type} (l : list A) (limit : Z) : list A :=
  if (0 <=? limit)%Z then firstn (Z.to_nat limit) l
  else firstn (length l - Z.to_nat (- limit)) l.

(** Lines 166 to 207: the body of the [try]. [time.sleep(0.5)] between the
    two loops changes nothing here: what the second loop sees is
    [process_iter_second]. *)
Definition collect_processes (h : host) : res (list ProcessInfo) :=
  procs ← process_iter_first h;
  _ ← first_pass procs;
  procs ← process_iter_second h;
  second_pass h procs [].

Definition get_top_processes (h : host) (limit : Z) : res (list ProcessInfo) :=
  if negb (HAS_PSUTIL h) then Ok []
  else
    try_except
      (processes ← collect_processes h;
       Ok (slice_to (sort_by_cpu_desc processes) limit))
      any_exception (λ _, Ok []).

(** ** Display

    What [print] writes is kept as a list of [line]s: the data of each
    line, without its layout. *)

Inductive line : Type :=
| Rule
| Title
| HeaderPlatform (s : string)
| HeaderPython (s : string)
| HeaderArchitecture (s : string)
| CpuUsage (usage physical logical : pyval)
| Temperature (t : pyval)
| Frequency (f : pyval)
| Memory (used total percent : pyval)
| Available (a : pyval)
| Swap (used total percent : pyval)
| DiskUsage
| DiskVolume (dev mount : pyval)
| DiskSpace (used total : pyval) (percent : string)
| NoActiveProcesses
| ProcessColumns
| ProcessRow (rank : nat) (shown_name cpu mem : string) (pid : Z)
| Total (cpu mem : Z).   (* tenths, printed with one decimal place *)

Definition display_header (h : host) : list line :=
  [Rule; Title; Rule;
   HeaderPlatform (platform_platform h);
   HeaderPython (platform_python_version h);
   HeaderArchitecture (platform_architecture h);
   Rule].

Definition display_cpu_info (cpu_info : gmap string pyval) : res (list line) :=
  usage ← getitem cpu_info "usage";
  physical ← getitem cpu_info "physical_cores";
  logical ← getitem cpu_info "logical_cores";
  temperature ←
    match cpu_info !! "temperature" with
    | Some _ => t ← getitem cpu_info "temperature"; Ok [Temperature t]
    | None => Ok []
    end;
  frequency ← getitem cpu_info "frequency";
  Ok ([CpuUsage usage physical logical] ++ temperature ++ [Frequency frequency])%list.

Definition pyval_is_str (v : pyval) (s : string) : bool :=
  match v with
  | VStr s' => String.eqb s' s
  | _ => false
  end.

Definition display_memory_info (memory_info : gmap string pyval) : res (list line) :=
  used ← getitem memory_info "used";
  total ← getitem memory_info "total";
  percent ← getitem memory_info "percent";
  available ← getitem memory_info "available";
  swap_total ← getitem memory_info "swap_total";
  swap ←
    (if negb (pyval_is_str swap_total "0 B") then
       swap_used ← getitem memory_info "swap_used";
       swap_total ← getitem memory_info "swap_total";
       swap_percent ← getitem memory_info "swap_percent";
       Ok [Swap swap_used swap_total swap_percent]
     else Ok []);
  Ok ([Memory used total percent; Available available] ++ swap)%list.

(** [f"{v:.1f}"] on a value of a dictionary. *)
Definition format_1f (v : pyval) : res string :=
  match v with
  | VFloat x => Ok (fmt1 x)
  | VInt n => Ok (fmt1 (inject_Z n))
  | VStr _ => Raise ValueError
  | VNone => Raise TypeError
  end.

Fixpoint display_disks (disk_info : list (gmap string pyval)) : res (list line) :=
  match disk_info with
  | [] => Ok []
  | disk :: rest =>
      dev ← getitem disk "device";
      mount ← getitem disk "mountpoint";
      used ← getitem disk "used";
      total ← getitem disk "total";
      percent ← getitem disk "percent";
      shown ← format_1f percent;
      more ← display_disks rest;
      Ok ([DiskVolume dev mount; DiskSpace used total shown] ++ more)%list
  end.

Definition display_disk_info (disk_info : list (gmap string pyval)) : res (list line) :=
  more ← display_disks disk_info;
  Ok (DiskUsage :: more).

(** [sum(...)] over a list of tenths. *)
Definition sum_tenths (f : ProcessInfo -> Z) (l : list ProcessInfo) : Z :=
  fold_left (fun acc p => acc + f p)%Z l 0%Z.

Definition show_tenths (t : Z) : string := tenths_to_string (t <? 0)%Z t.

(** Line 288 *)
Definition shown_name (s : string) : string :=
  if (String.length s <=? 22)%nat then s else substring 0 19 s ++ "...".

Fixpoint process_rows (i : nat) (top_processes : list ProcessInfo) : list line :=
  match top_processes with
  | [] => []
  | proc :: rest =>
      ProcessRow i (shown_name (name proc)) (show_tenths (cpu_percent proc))
        (show_tenths (memory_mb proc)) (pid proc)
      :: process_rows (S i) rest
  end.

Definition display_processes (processes : list ProcessInfo) : list line :=
  let processes := sort_by_cpu_desc processes in
  let top_processes := slice_to processes 10 in
  match top_processes with
  | [] => [NoActiveProcesses]
  | _ :: _ =>
      let total_cpu := sum_tenths cpu_percent processes in
      let total_mem := sum_tenths memory_mb processes in
      ([ProcessColumns; Rule] ++ process_rows 1 top_processes
        ++ [Rule; Total total_cpu total_mem])%list
  end.

(** ** [monitor_once] *)

Definition monitor_once (h : host) : res (list line) :=
  let header := display_header h in
  cpu_info ← get_cpu_info h;
  cpu ← display_cpu_info cpu_info;
  memory_info ← get_memory_info h;
  memory ← display_memory_info memory_info;
  disk_info ← get_disk_info h;
  disk ← display_disk_info disk_info;
  processes ← get_top_processes h 10;
  Ok (header ++ cpu ++ memory ++ disk ++ display_processes processes ++ [Rule])%list.

(** The totals that a sequence of printed lines reports, if it reports any. *)
Fixpoint reported_totals (out : list line) : option (Z * Z) :=
  match out with
  | [] => None
  | Total cpu mem :: _ => Some (cpu, mem)
  | _ :: rest => reported_totals rest
  end.

(** ** The byte formatter as the specification words it

    Divide by 1024 while the value is at least 1024, moving to the next
    unit label each time; stop at the first unit where the value is below
    1024, or at PB; print with one decimal place. *)

Definition all_units : list string := ["B"; "KB"; "MB"; "GB"; "TB"; "PB"].



(** The place of a unit label in the sequence B, KB, MB, GB, TB, PB. *)
Fixpoint index_of (s : string) (l : list string) : nat :=
  match l with
  | [] => O
  | x :: rest => if String.eqb s x then O else S (index_of s rest)
  end.

Definition unit_rank (unit : string) : nat := index_of unit all_units.

(** ** Orders on the ranked list *)

(** Descending CPU percent. *)
Definition cpu_desc (a b : ProcessInfo) : Prop := (cpu_percent b <= cpu_percent a)%Z.



(** The entry that the second loop appends for a process, if it appends one. *)
Definition entry_of (h : host) (proc : res proc_info) : option ProcessInfo :=
  match info ← proc; process_entry h info with
  | Ok (Some entry) => Some entry
  | _ => None
  end.


(** Lines 313 and 314 of [monitor_once], for any [limit]. *)
Definition ranking_report (h : host) (limit : Z) : res (list line) :=
  processes ← get_top_processes h limit;
  Ok (display_processes processes).

(** ** Sample hosts *)

Definition sample_host (has_psutil : bool) (sys : string)
    (partitions : list sdiskpart) (usage : string -> res sdiskusage)
    (cpu_count : option Z) (procs : list (res proc_info)) : host :=
  {| HAS_PSUTIL := has_psutil;
     system := sys;
     os_cpu_count := cpu_count;
     platform_platform := sys;
     platform_python_version := "3.12.0";
     platform_architecture := "64bit";
     psutil_cpu_percent_percpu := Ok tt;
     psutil_cpu_percent := Ok (25 # 2);
     psutil_cpu_count := Ok cpu_count;
     psutil_cpu_count_physical := Ok cpu_count;
     wmi_processor := Raise ImportError;
     psutil_cpu_freq := Ok (Some 2400%Q);
     psutil_sensors_temperatures := Raise AttributeError;
     psutil_virtual_memory :=
       Ok {| vm_total := 8589934592; vm_available := 4294967296;
             vm_used := 4294967296; vm_percent := 50 |};
     psutil_swap_memory := Ok {| swap_total := 0; swap_used := 0; swap_percent := 0 |};
     psutil_disk_partitions := Ok partitions;
     psutil_disk_usage := usage;
     os_path_abspath_dot := Ok "/home/user";
     shutil_disk_usage := usage;
     process_iter_first := Ok (map (fun _ => Ok tt) procs);
     process_iter_second := Ok procs |}.

Definition proc (p : Z) (s : string) (cpu : Q) (rss : Z) : res proc_info :=
  Ok {| info_pid := p; info_name := Some s;
        info_cpu_percent := Some cpu; info_memory_rss := Some rss |}.

Definition no_usage (path : string) : res sdiskusage := Raise OSError.

Definition linux_without_psutil : host :=
  sample_host false "Linux" [] (fun _ => Ok {| du_total := 1000; du_used := 400; du_free := 600 |})
    (Some 4) [].

Definition windows_without_psutil : host :=
  sample_host false "Windows" [] (fun _ => Ok {| du_total := 1000; du_used := 400; du_free := 600 |})
    (Some 4) [].

(** Two processes with the same CPU percent, the larger pid first. *)
Definition tie_host : host :=
  sample_host true "Linux" [] no_usage (Some 1)
    [proc 5 "alpha" 10 1048576; proc 3 "beta" 10 1048576].


(** Eleven processes, each at one percent and one megabyte. *)
Definition eleven_host : host :=
  sample_host true "Linux" [] no_usage (Some 1)
    (map (fun p => proc p "worker" 1 1048576) [1; 2; 3; 4; 5; 6; 7; 8; 9; 10; 11]%Z).

(** Eight logical cores, one process that keeps one core busy, and the
    idle pseudo-process. *)
Definition eight_core_host : host :=
  sample_host true "Windows" [] no_usage (Some 8)
    [proc 0 "System Idle Process" 700 8192; proc 4242 "worker.exe" 100 52428800].

(** Three volumes; the usage query of the second one is refused. *)
Definition three_mounts : list sdiskpart :=
  [ {| device := "/dev/sda1"; mountpoint := "/" |};
    {| device := "/dev/sdb1"; mountpoint := "/mnt/locked" |};
    {| device := "/dev/sdc1"; mountpoint := "/data" |} ].

Definition three_mounts_usage (path : string) : res sdiskusage :=
  if String.eqb path "/mnt/locked" then Raise PermissionError
  else Ok {| du_total := 2048; du_used := 512; du_free := 1536 |}.

Definition three_mounts_host : host :=
  sample_host true "Linux" three_mounts three_mounts_usage (Some 4) [].

(** A process vanishes, another one has no readable name. *)
Definition churn_host : host :=
  sample_host true "Linux" [] no_usage (Some 2)
    [proc 1 "init" 2 1048576; Raise NoSuchProcess; proc 7 "shell" 4 2097152].

Definition unreadable_host : host :=
  sample_host true "Linux" [] no_usage (Some 2)
    [proc 1 "init" 2 1048576;
     Ok {| info_pid := 9; info_name := None;
           info_cpu_percent := None; info_memory_rss := None |}].

(** [divided k v] is [v] divided [k] times by 1024. *)
Definition divided (k : nat) (v : Q) : Q := Nat.iter k (fun x => x / 1024)%Q v.

(** The entry of a volume whose probe succeeds. *)
Definition probed (h : host) (partition : sdiskpart) : option (gmap string pyval) :=
  match probe_partition h partition with
  | Ok entry => Some entry
  | Raise _ => None
  end.

Definition probe_fails (h : host) (partition : sdiskpart) : bool :=
  match probe_partition h partition with
  | Ok _ => false
  | Raise _ => true
  end.

(** Unfolds the error monad. *)
Ltac unfold_res := unfold mbind, res_bind, try_except, any_exception in *.

(** ** [monitor_continuous] and [main] *)







(** ** Conditions on a host *)

Definition is_ok {A : Type} (r : res A) : bool :=
  match r with
  | Ok _ => true
  | Raise _ => false
  end.

(** The four calls of lines 32 to 37 succeed, with [psutil] present. *)
Definition cpu_probes_ok (h : host) : bool :=
  HAS_PSUTIL h
  && is_ok (psutil_cpu_percent_percpu h)
  && is_ok (psutil_cpu_percent h)
  && is_ok (psutil_cpu_count h)
  && is_ok (psutil_cpu_count_physical h).

(** Whether a string has a decimal point. *)
Fixpoint has_point (s : string) : bool :=
  match s with
  | EmptyString => false
  | String c rest => Ascii.eqb c "." || has_point rest
  end.

(** The exception, if any, that building the entry of a process raises
    past the handler of line 202. *)
Definition entry_is_fatal (h : host) (proc : res proc_info) : bool :=
  match info ← proc; process_entry h info with
  | Ok _ => false
  | Raise e => negb (psutil_process_error e)
  end.

(** * Properties *)

(** ** The byte formatter *)

Lemma Qltb_spec (x y : Q) : Qltb x y = true <-> (x < y)%Q.
Proof.
  unfold Qltb. rewrite Qlt_alt. destruct (x ?= y)%Q; split; congruence.
Qed.



Lemma divided_S (k : nat) (v : Q) : divided (S k) v = divided k (v / 1024)%Q.
Proof. unfold divided. rewrite Nat.iter_succ_r. reflexivity. Qed.

Lemma divided_le (k : nat) : forall a b : Q, (a <= b)%Q -> (divided k a <= divided k b)%Q.
Proof.
  induction k as [|k IH]; intros a b Hab; [exact Hab|].
  rewrite !divided_S. apply IH.
  unfold Qdiv. apply Qmult_le_compat_r; [exact Hab|]. discriminate.
Qed.

(** The loop stops at the first unit where the value is below 1024, or
    after the last one. *)
Lemma format_bytes_loop_stops (us : list string) :
  forall v : Q, exists k : nat,
    (k <= length us)%nat
    /\ format_bytes_loop us v = (divided k v, nth k (us ++ ["PB"])%list "")
    /\ ((k < length us)%nat -> (divided k v < 1024)%Q)
    /\ (forall j : nat, (j < k)%nat -> (1024 <= divided j v)%Q).
Proof.
  induction us as [|u us IH]; intros v.
  - exists O. cbn. split; [lia|]. split; [reflexivity|]. split; intros; lia.
  - cbn [format_bytes_loop]. destruct (Qltb v 1024) eqn:E.
    + exists O. cbn. split; [lia|]. split; [reflexivity|]. split.
      * intros _. apply Qltb_spec. exact E.
      * intros j Hj. lia.
    + destruct (IH (v / 1024)%Q) as (k & Hk & Heq & Hlt & Hge).
      exists (S k). rewrite divided_S. cbn [length nth app].
      split; [lia|]. split; [exact Heq|]. split.
      * intros H. apply Hlt. lia.
      * intros [|j] Hj.
        -- cbn. apply Qnot_lt_le. rewrite <- Qltb_spec. congruence.
        -- rewrite divided_S. apply Hge. lia.
Qed.


Lemma format_bytes_stops (n : Z) :
  exists k : nat,
    (k <= 5)%nat
    /\ format_bytes n = fmt1 (divided k (inject_Z n)) ++ " " ++ nth k all_units ""
    /\ format_bytes_unit n = nth k all_units ""
    /\ ((k < 5)%nat -> (divided k (inject_Z n) < 1024)%Q)
    /\ (forall j : nat, (j < k)%nat -> (1024 <= divided j (inject_Z n))%Q).
Proof.
  destruct (format_bytes_loop_stops units (inject_Z n)) as (k & Hk & Heq & Hlt & Hge).
  exists k. unfold format_bytes, format_bytes_unit. rewrite Heq.
  repeat split; assumption.
Qed.

Lemma unit_rank_nth (k : nat) : (k <= 5)%nat -> unit_rank (nth k all_units "") = k.
Proof.
  intros H. do 6 (destruct k as [|k]; [reflexivity|]). lia.
Qed.


(** C5: the unit is monotone in the input: for non-negative [a <= b], the
    unit chosen for [b] is not earlier in B, KB, MB, GB, TB, PB than the one
    chosen for [a]. *)
Theorem format_bytes_unit_monotone (a b : Z) :
  (0 <= a)%Z -> (a <= b)%Z ->
  (unit_rank (format_bytes_unit a) <= unit_rank (format_bytes_unit b))%nat.
Proof.
  intros _ Hab.
  destruct (format_bytes_stops a) as (ka & Hka & _ & Ha & _ & Hgea).
  destruct (format_bytes_stops b) as (kb & Hkb & _ & Hb & Hltb & _).
  rewrite Ha, Hb, !unit_rank_nth by assumption.
  destruct (le_lt_dec ka kb) as [H|H]; [exact H|exfalso].
  assert (H1 : (divided kb (inject_Z b) < 1024)%Q) by (apply Hltb; lia).
  assert (H2 : (1024 <= divided kb (inject_Z a))%Q) by (apply Hgea; exact H).
  assert (H3 : (divided kb (inject_Z a) <= divided kb (inject_Z b))%Q).
  { apply divided_le. rewrite <- Zle_Qle. exact Hab. }
  apply (Qlt_not_le _ _ H1). eapply Qle_trans; eassumption.
Qed.

Lemma format_bytes_unit_monotone_witness :
  (unit_rank (format_bytes_unit 1536) <= unit_rank (format_bytes_unit 1073741824))%nat.
Proof. apply format_bytes_unit_monotone; lia. Defined.

(** ** The sort and the slice *)

Lemma sort_insert_perm (x : ProcessInfo) (l : list ProcessInfo) :
  Permutation (sort_insert x l) (x :: l).
Proof.
  induction l as [|y l IH]; cbn [sort_insert]; [reflexivity|].
  destruct (cpu_percent y <=? cpu_percent x)%Z; [reflexivity|].
  rewrite IH. apply perm_swap.
Qed.

Lemma sort_perm (l : list ProcessInfo) : Permutation (sort_by_cpu_desc l) l.
Proof.
  induction l as [|x l IH]; cbn; [reflexivity|].
  fold (sort_by_cpu_desc l). rewrite sort_insert_perm. constructor. exact IH.
Qed.

Lemma sort_insert_Forall (P : ProcessInfo -> Prop) (x : ProcessInfo) (l : list ProcessInfo) :
  P x -> Forall P l -> Forall P (sort_insert x l).
Proof.
  intros Hx Hl. eapply Permutation_Forall.
  - symmetry. apply sort_insert_perm.
  - constructor; assumption.
Qed.

Lemma sort_insert_sorted (x : ProcessInfo) (l : list ProcessInfo) :
  StronglySorted cpu_desc l -> StronglySorted cpu_desc (sort_insert x l).
Proof.
  induction 1 as [|y l Hl IH Hy]; cbn [sort_insert].
  - repeat constructor.
  - destruct (cpu_percent y <=? cpu_percent x)%Z eqn:E.
    + apply Z.leb_le in E. constructor; [constructor; assumption|].
      constructor; [exact E|].
      rewrite Forall_forall in Hy |- *. intros z Hz.
      specialize (Hy z Hz). unfold cpu_desc in *. lia.
    + apply Z.leb_gt in E. constructor; [exact IH|].
      apply sort_insert_Forall; [unfold cpu_desc; lia|exact Hy].
Qed.

Lemma sort_sorted (l : list ProcessInfo) : StronglySorted cpu_desc (sort_by_cpu_desc l).
Proof.
  induction l as [|x l IH]; cbn; [constructor|].
  apply sort_insert_sorted. exact IH.
Qed.





Lemma slice_to_prefix {A : Type} (l : list A) (limit : Z) :
  exists dropped : list A, l = (slice_to l limit ++ dropped)%list.
Proof.
  unfold slice_to. destruct (0 <=? limit)%Z.
  - exists (skipn (Z.to_nat limit) l). symmetry. apply firstn_skipn.
  - exists (skipn (length l - Z.to_nat (- limit)) l). symmetry. apply firstn_skipn.
Qed.

Lemma slice_to_all {A : Type} (l : list A) (limit : Z) :
  (Z.of_nat (length l) <= limit)%Z -> slice_to l limit = l.
Proof.
  intros H. unfold slice_to.
  destruct (0 <=? limit)%Z eqn:E; [|apply Z.leb_gt in E; lia].
  apply firstn_all2. lia.
Qed.

Lemma StronglySorted_prefix {A : Type} (R : A -> A -> Prop) (l1 l2 : list A) :
  StronglySorted R (l1 ++ l2) -> StronglySorted R l1.
Proof.
  induction l1 as [|x l1 IH]; cbn; intros H; [constructor|].
  inversion H as [|? ? Hs Hf]; subst. constructor; [apply IH; exact Hs|].
  apply Forall_app in Hf. apply Hf.
Qed.

(** ** The collection loops *)

Lemma second_pass_entries (h : host) (procs : list (res proc_info)) :
  forall acc out : list ProcessInfo,
    second_pass h procs acc = Ok out ->
    out = (acc ++ omap (entry_of h) procs)%list.
Proof.
  induction procs as [|proc procs IH]; intros acc out H; cbn in H |- *.
  - rewrite app_nil_r. congruence.
  - unfold entry_of. unfold_res.
    destruct (match proc with Ok a => process_entry h a | Raise e => Raise e end)
      as [[entry|]|e].
    + apply IH in H. rewrite <- app_assoc in H. exact H.
    + apply IH in H. exact H.
    + destruct (psutil_process_error e); [|discriminate].
      apply IH in H. exact H.
Qed.

(** What an appended entry is made of. *)
Lemma entry_of_Some (h : host) (proc : res proc_info) (entry : ProcessInfo) :
  entry_of h proc = Some entry ->
  exists (info : proc_info) (raw_name : string) (rss : Z) (raw : Q) (count : Z),
    proc = Ok info
    /\ info_name info = Some raw_name
    /\ info_memory_rss info = Some rss
    /\ info_cpu_percent info = Some raw
    /\ psutil_cpu_count h = Ok (Some count)
    /\ count <> 0%Z
    /\ str_in (lower (normalized_name raw_name)) denylist = false
    /\ entry = {| name := normalized_name raw_name;
                  cpu_percent := round1 (raw / inject_Z count);
                  memory_mb := round1 (inject_Z rss / 1024 / 1024);
                  pid := info_pid info |}.
Proof.
  unfold entry_of, process_entry, attribute, truediv. unfold_res.
  destruct proc as [info|e]; [|discriminate].
  destruct (info_name info) as [raw_name|] eqn:Hname; [|discriminate].
  destruct (info_memory_rss info) as [rss|] eqn:Hrss; [|discriminate].
  destruct (psutil_cpu_count h) as [[count|]|e] eqn:Hcount; cbn -[str_in round1];
    destruct (info_cpu_percent info) as [raw|] eqn:Hraw; try discriminate.
  destruct (Qeq_bool (inject_Z count) 0) eqn:E; [discriminate|].
  destruct (str_in (lower (normalized_name raw_name)) denylist) eqn:D; [discriminate|].
  intros H. injection H as <-.
  exists info, raw_name, rss, raw, count.
  do 5 (split; [first [reflexivity | assumption]|]).
  split; [|split; [exact D|reflexivity]].
  intros ->. discriminate.
Qed.

Lemma get_top_processes_inv (h : host) (limit : Z) (out : list ProcessInfo) :
  get_top_processes h limit = Ok out ->
  out = []
  \/ exists procs : list (res proc_info),
       HAS_PSUTIL h = true
       /\ process_iter_second h = Ok procs
       /\ collect_processes h = Ok (omap (entry_of h) procs)
       /\ out = slice_to (sort_by_cpu_desc (omap (entry_of h) procs)) limit.
Proof.
  unfold get_top_processes. destruct (HAS_PSUTIL h); cbn [negb]; [|left; congruence].
  unfold_res. destruct (collect_processes h) as [all|e] eqn:C; [|left; congruence].
  intros H. injection H as <-. right.
  unfold collect_processes in C. unfold_res.
  destruct (process_iter_first h) as [first|]; [|discriminate].
  destruct (first_pass first); [|discriminate].
  destruct (process_iter_second h) as [procs|]; [|discriminate].
  apply second_pass_entries in C. cbn in C. subst all.
  exists procs. repeat split; reflexivity.
Qed.

(** [get_top_processes] never raises. *)
Lemma get_top_processes_returns (h : host) (limit : Z) :
  exists out : list ProcessInfo, get_top_processes h limit = Ok out.
Proof.
  unfold get_top_processes. destruct (HAS_PSUTIL h); cbn [negb]; [|eauto].
  unfold_res. destruct (collect_processes h); eauto.
Qed.

Lemma In_slice_to {A : Type} (x : A) (l : list A) (limit : Z) :
  In x (slice_to l limit) -> In x l.
Proof.
  intros H. destruct (slice_to_prefix l limit) as [dropped E].
  rewrite E. apply in_or_app. left. exact H.
Qed.

(** Every entry of the result was appended for a process of the second loop. *)
Lemma get_top_processes_In (h : host) (limit : Z) (out : list ProcessInfo)
    (entry : ProcessInfo) :
  get_top_processes h limit = Ok out -> In entry out ->
  exists (procs : list (res proc_info)) (proc : res proc_info),
    process_iter_second h = Ok procs /\ In proc procs /\ entry_of h proc = Some entry.
Proof.
  intros H Hin. destruct (get_top_processes_inv _ _ _ H) as [->|(procs & _ & P & _ & ->)].
  - destruct Hin.
  - apply In_slice_to in Hin.
    apply (Permutation_in _ (sort_perm _)) in Hin.
    apply list_elem_of_In, list_elem_of_omap in Hin. destruct Hin as (proc & Hp & He).
    exists procs, proc. repeat split; [exact P|apply list_elem_of_In; exact Hp|exact He].
Qed.

(** ** Totals *)

Lemma fold_left_add (f : ProcessInfo -> Z) (l : list ProcessInfo) :
  forall a : Z,
    fold_left (fun acc p => acc + f p)%Z l a
    = (a + fold_left (fun acc p => acc + f p)%Z l 0)%Z.
Proof.
  induction l as [|x l IH]; intros a; cbn [fold_left]; [lia|].
  rewrite (IH (a + f x)%Z), (IH (0 + f x)%Z). lia.
Qed.

Lemma sum_tenths_cons (f : ProcessInfo -> Z) (x : ProcessInfo) (l : list ProcessInfo) :
  sum_tenths f (x :: l) = (f x + sum_tenths f l)%Z.
Proof. unfold sum_tenths. cbn [fold_left]. rewrite Z.add_0_l. apply fold_left_add. Qed.

Lemma sum_tenths_perm (f : ProcessInfo -> Z) (l l' : list ProcessInfo) :
  Permutation l l' -> sum_tenths f l = sum_tenths f l'.
Proof.
  induction 1 as [|x l l' _ IH|x y l|l l' l'' _ IH1 _ IH2].
  - reflexivity.
  - rewrite !sum_tenths_cons, IH. reflexivity.
  - rewrite !sum_tenths_cons. lia.
  - congruence.
Qed.

Lemma reported_totals_rows (rest : list line) (top : list ProcessInfo) :
  forall i : nat, reported_totals (process_rows i top ++ rest) = reported_totals rest.
Proof. induction top as [|x top IH]; intros i; cbn; [reflexivity|apply IH]. Qed.

Lemma display_processes_totals (processes : list ProcessInfo) :
  processes <> [] ->
  reported_totals (display_processes processes)
  = Some (sum_tenths cpu_percent processes, sum_tenths memory_mb processes).
Proof.
  intros Hne. unfold display_processes.
  rewrite <- (sum_tenths_perm cpu_percent _ _ (sort_perm processes)).
  rewrite <- (sum_tenths_perm memory_mb _ _ (sort_perm processes)).
  destruct (sort_by_cpu_desc processes) as [|x sorted] eqn:E.
  - exfalso. apply Hne. apply Permutation_nil. rewrite <- E. apply sort_perm.
  - change (slice_to (x :: sorted) 10) with (x :: firstn 9 sorted).
    cbn -[sum_tenths]. apply reported_totals_rows.
Qed.

Lemma display_processes_empty : display_processes [] = [NoActiveProcesses].
Proof. reflexivity. Qed.

(** C1, as amended: the totals reported with the ranking are the sums of
    the CPU percents and of the memory figures over the whole list that
    [get_top_processes] returned, that is, over the filtered set after it
    was sorted and cut to [limit] entries; the ten rows that the display
    keeps do not change them. They are the sums over the entire filtered
    set when that set has no more than [limit] entries. *)
Theorem totals_are_over_returned_list (h : host) (limit : Z) (out : list ProcessInfo) :
  get_top_processes h limit = Ok out ->
  out <> [] ->
  ranking_report h limit = Ok (display_processes out)
  /\ reported_totals (display_processes out)
     = Some (sum_tenths cpu_percent out, sum_tenths memory_mb out)
  /\ (forall all : list ProcessInfo,
        collect_processes h = Ok all ->
        (Z.of_nat (length all) <= limit)%Z ->
        reported_totals (display_processes out)
        = Some (sum_tenths cpu_percent all, sum_tenths memory_mb all)).
Proof.
  intros H Hne. split; [|split].
  - unfold ranking_report. rewrite H. reflexivity.
  - apply display_processes_totals. exact Hne.
  - intros all C Hlen. rewrite display_processes_totals by exact Hne.
    destruct (get_top_processes_inv _ _ _ H) as [->|(procs & _ & _ & C' & ->)];
      [contradiction|].
    rewrite C in C'. injection C' as <-.
    rewrite slice_to_all.
    + rewrite (sum_tenths_perm cpu_percent _ _ (sort_perm all)).
      rewrite (sum_tenths_perm memory_mb _ _ (sort_perm all)). reflexivity.
    + rewrite (Permutation_length (sort_perm all)). exact Hlen.
Qed.

Lemma totals_are_over_returned_list_witness :
  ranking_report eight_core_host 10
  = Ok (display_processes
          [{| name := "worker"; cpu_percent := 125; memory_mb := 500; pid := 4242 |}])
  /\ reported_totals
       (display_processes
          [{| name := "worker"; cpu_percent := 125; memory_mb := 500; pid := 4242 |}])
     = Some (125, 500)%Z.
Proof.
  destruct (totals_are_over_returned_list eight_core_host 10
              [{| name := "worker"; cpu_percent := 125; memory_mb := 500; pid := 4242 |}])
    as (H1 & H2 & _).
  - vm_compute. reflexivity.
  - discriminate.
  - split; [exact H1|exact H2].
Defined.

(** C1, as stated, fails: with eleven processes in the filtered set and
    the limit of ten that [monitor_once] passes, the totals reported are
    those of the ten entries kept (10.0 and 10.0), not the sums over the
    eleven (11.0 and 11.0). *)
Lemma totals_follow_the_limit :
  exists (all : list ProcessInfo) (out : list line),
    collect_processes eleven_host = Ok all
    /\ length all = 11%nat
    /\ ranking_report eleven_host 10 = Ok out
    /\ reported_totals out = Some (100, 100)%Z
    /\ (sum_tenths cpu_percent all, sum_tenths memory_mb all) = (110, 110)%Z.
Proof.
  eexists. eexists. split; [vm_compute; reflexivity|].
  split; [reflexivity|]. split; [vm_compute; reflexivity|].
  split; vm_compute; reflexivity.
Qed.

(** ** The order of the ranking *)






(** ** The denylist *)

(** C6: a process whose normalized name matches the denylist, whatever
    its case, gets no entry; so no entry of the top-N output has such a
    name, and the reported totals, which are sums over that output, have no
    contribution from it. *)
Theorem denylisted_are_left_out (h : host) (limit : Z) (out : list ProcessInfo) :
  get_top_processes h limit = Ok out ->
  (forall (info : proc_info) (raw_name : string),
      info_name info = Some raw_name ->
      str_in (lower (normalized_name raw_name)) denylist = true ->
      entry_of h (Ok info) = None)
  /\ (forall entry : ProcessInfo,
        In entry out -> str_in (lower (name entry)) denylist = false)
  /\ (forall totals : Z * Z,
        reported_totals (display_processes out) = Some totals ->
        totals = (sum_tenths cpu_percent out, sum_tenths memory_mb out)).
Proof.
  intros H. split; [|split].
  - intros info raw_name Hname Hdeny.
    destruct (entry_of h (Ok info)) as [entry|] eqn:E; [|reflexivity].
    apply entry_of_Some in E.
    destruct E as (info' & raw' & ? & ? & ? & [= <-] & Hname' & _ & _ & _ & _ & D & _).
    congruence.
  - intros entry Hin.
    destruct (get_top_processes_In _ _ _ _ H Hin) as (procs & proc & _ & _ & E).
    apply entry_of_Some in E.
    destruct E as (? & ? & ? & ? & ? & _ & _ & _ & _ & _ & _ & D & ->). exact D.
  - intros totals. destruct out as [|x out]; [discriminate|].
    rewrite display_processes_totals by discriminate. congruence.
Qed.

Lemma denylisted_are_left_out_witness :
  entry_of eight_core_host (proc 0 "System Idle Process" 700 8192) = None
  /\ str_in (lower "worker") denylist = false.
Proof.
  destruct (denylisted_are_left_out eight_core_host 10
              [{| name := "worker"; cpu_percent := 125; memory_mb := 500; pid := 4242 |}])
    as (H1 & H2 & _).
  - vm_compute. reflexivity.
  - split.
    + apply (H1 _ "System Idle Process"); reflexivity.
    + apply (H2 {| name := "worker"; cpu_percent := 125; memory_mb := 500; pid := 4242 |}).
      left. reflexivity.
Defined.

(** ** Normalization by the core count *)



(** ** No exception leaves the ranking *)

Lemma first_pass_skips (e : exn) (rest : list (res unit)) :
  psutil_process_error e = true -> first_pass (Raise e :: rest) = first_pass rest.
Proof. intros H. cbn. unfold_res. rewrite H. reflexivity. Qed.

Lemma second_pass_skips (h : host) (e : exn) (rest : list (res proc_info))
    (acc : list ProcessInfo) :
  psutil_process_error e = true ->
  second_pass h (Raise e :: rest) acc = second_pass h rest acc.
Proof. intros H. cbn. unfold_res. rewrite H. reflexivity. Qed.

(** C10: [get_top_processes] always returns a list and never raises. The
    list is empty when [psutil] is absent and when the collection raises
    (any exception other than the three that stand for a process that
    vanished or denied access); a process that raises one of those three,
    in either loop, is skipped and the collection goes on. *)
Theorem get_top_processes_never_raises (h : host) (limit : Z) :
  (exists out : list ProcessInfo,
      get_top_processes h limit = Ok out
      /\ (HAS_PSUTIL h = false -> out = [])
      /\ (forall e : exn, collect_processes h = Raise e -> out = []))
  /\ (forall (e : exn) (rest : list (res unit)),
        psutil_process_error e = true ->
        first_pass (Raise e :: rest) = first_pass rest)
  /\ (forall (e : exn) (rest : list (res proc_info)) (acc : list ProcessInfo),
        psutil_process_error e = true ->
        second_pass h (Raise e :: rest) acc = second_pass h rest acc).
Proof.
  split; [|split; [apply first_pass_skips|apply second_pass_skips]].
  unfold get_top_processes. destruct (HAS_PSUTIL h); cbn [negb].
  - unfold_res. destruct (collect_processes h) as [all|e].
    + eexists. split; [reflexivity|]. split; [discriminate|]. intros e. discriminate.
    + exists []. split; [reflexivity|]. split; [discriminate|]. reflexivity.
  - exists []. repeat split; reflexivity.
Qed.

(** ** Disks *)

Lemma disk_loop_entries (h : host) (partitions : list sdiskpart) :
  forall disk_info : list (gmap string pyval),
    disk_loop h partitions disk_info = (disk_info ++ omap (probed h) partitions)%list.
Proof.
  induction partitions as [|partition partitions IH]; intros disk_info; cbn.
  - rewrite app_nil_r. reflexivity.
  - unfold probed at 1. destruct (probe_partition h partition).
    + rewrite IH, <- app_assoc. reflexivity.
    + apply IH.
Qed.

Lemma probed_length (h : host) (partitions : list sdiskpart) :
  (length (omap (probed h) partitions)
   + length (List.filter (probe_fails h) partitions))%nat
  = length partitions.
Proof.
  induction partitions as [|partition partitions IH]; cbn; [reflexivity|].
  unfold probed at 1, probe_fails at 1.
  destruct (probe_partition h partition); cbn; lia.
Qed.

Lemma get_disk_info_returns (h : host) :
  exists disk_info : list (gmap string pyval), get_disk_info h = Ok disk_info.
Proof.
  unfold get_disk_info. destruct (disk_info_psutil h); [|eauto].
  unfold_res. destruct (disk_info_fallback h); eauto.
Qed.

(** C8: the disk enumeration isolates the failure of a volume. It never
    raises; with [psutil] present, the result is, in order, the entries of
    exactly the volumes whose probe succeeds (when there is one), so a
    volume whose usage query fails has no entry, zero-valued or other, and
    the other volumes keep theirs; the number of entries is the number of
    volumes less the failed ones. *)
Theorem disk_failures_are_isolated (h : host) :
  (exists disk_info : list (gmap string pyval), get_disk_info h = Ok disk_info)
  /\ (forall partitions : list sdiskpart,
        HAS_PSUTIL h = true ->
        psutil_disk_partitions h = Ok partitions ->
        (omap (probed h) partitions <> [] ->
         get_disk_info h = Ok (omap (probed h) partitions))
        /\ (forall (partition : sdiskpart) (e : exn),
              psutil_disk_usage h (mountpoint partition) = Raise e ->
              probed h partition = None)
        /\ (length (omap (probed h) partitions)
            = length partitions - length (List.filter (probe_fails h) partitions))%nat).
Proof.
  split; [apply get_disk_info_returns|].
  intros partitions Hp Hparts. split; [|split].
  - intros Hne.
    unfold get_disk_info, disk_info_psutil. rewrite Hp, Hparts, disk_loop_entries.
    cbn [app]. destruct (omap (probed h) partitions); [contradiction|reflexivity].
  - intros partition e He. unfold probed, probe_partition. rewrite He. reflexivity.
  - pose proof (probed_length h partitions). lia.
Qed.

(** One of three volumes refuses the usage query: the result has the two
    other entries. *)
Lemma disk_failures_are_isolated_witness :
  (exists root data : gmap string pyval,
      get_disk_info three_mounts_host = Ok [root; data]
      /\ root !! "device" = Some (VStr "/dev/sda1")
      /\ data !! "device" = Some (VStr "/dev/sdc1"))
  /\ probed three_mounts_host {| device := "/dev/sdb1"; mountpoint := "/mnt/locked" |} = None.
Proof.
  destruct (proj2 (disk_failures_are_isolated three_mounts_host) three_mounts)
    as (H1 & H2 & _).
  - reflexivity.
  - reflexivity.
  - split.
    + eexists. eexists. split; [apply H1; vm_compute; discriminate|].
      split; vm_compute; reflexivity.
    + apply (H2 _ PermissionError). reflexivity.
Defined.

(** ** Without [psutil] *)

Lemma get_cpu_info_without_psutil (h : host) :
  HAS_PSUTIL h = false -> get_cpu_info h = Ok (cpu_info_fallback h).
Proof. intros H. unfold get_cpu_info. rewrite H. reflexivity. Qed.

Lemma get_memory_info_without_psutil (h : host) :
  HAS_PSUTIL h = false -> get_memory_info h = Ok memory_info_fallback.
Proof. intros H. unfold get_memory_info. rewrite H. reflexivity. Qed.

Lemma cpu_info_fallback_keys (h : host) :
  cpu_info_fallback h !! "cores" = Some (of_optional_int (os_cpu_count h))
  /\ cpu_info_fallback h !! "usage" = Some (VStr "Unknown")
  /\ cpu_info_fallback h !! "physical_cores" = None
  /\ cpu_info_fallback h !! "logical_cores" = None.
Proof. unfold cpu_info_fallback. repeat split; by simplify_map_eq. Qed.

(** C9, as amended: where [psutil] is unavailable, the CPU probe returns
    the reduced set with the logical core count that the operating system
    gives, and the disk probe never fails; it returns the used and free
    space of the volume of the working directory when the system is
    Windows (and that query succeeds, on a volume of non-zero size), and
    the empty sequence on every other system. *)
Theorem fallback_without_psutil (h : host) :
  HAS_PSUTIL h = false ->
  (get_cpu_info h = Ok (cpu_info_fallback h)
   /\ cpu_info_fallback h !! "cores" = Some (of_optional_int (os_cpu_count h)))
  /\ (exists disk_info : list (gmap string pyval), get_disk_info h = Ok disk_info)
  /\ (system h <> "Windows" -> get_disk_info h = Ok [])
  /\ (forall (current : string) (usage : sdiskusage),
        system h = "Windows" ->
        os_path_abspath_dot h = Ok current ->
        shutil_disk_usage h current = Ok usage ->
        du_total usage <> 0%Z ->
        exists entry : gmap string pyval,
          get_disk_info h = Ok [entry]
          /\ entry !! "mountpoint" = Some (VStr current)
          /\ entry !! "used" = Some (VStr (format_bytes (du_used usage)))
          /\ entry !! "free" = Some (VStr (format_bytes (du_free usage)))).
Proof.
  intros H. split; [|split; [|split]].
  - split; [apply get_cpu_info_without_psutil; exact H|apply cpu_info_fallback_keys].
  - apply get_disk_info_returns.
  - intros Hsys. unfold get_disk_info, disk_info_psutil, disk_info_fallback.
    rewrite H. unfold_res.
    destruct (os_path_abspath_dot h); [|reflexivity].
    destruct (String.eqb_spec (system h) "Windows"); [contradiction|reflexivity].
  - intros current usage Hsys Hcwd Husage Htotal.
    unfold get_disk_info, disk_info_psutil, disk_info_fallback, disk_entry, truediv.
    rewrite H, Hcwd, Hsys. unfold_res. cbn [String.eqb Ascii.eqb Bool.eqb].
    rewrite Husage.
    destruct (Qeq_bool (inject_Z (du_total usage)) 0) eqn:E.
    + exfalso. apply Htotal. apply Qeq_bool_eq in E.
      unfold Qeq in E. cbn in E. lia.
    + eexists. split; [reflexivity|]. repeat split; by simplify_map_eq.
Qed.

Lemma fallback_without_psutil_witness :
  (get_cpu_info windows_without_psutil = Ok (cpu_info_fallback windows_without_psutil)
   /\ cpu_info_fallback windows_without_psutil !! "cores" = Some (VInt 4))
  /\ exists entry : gmap string pyval,
       get_disk_info windows_without_psutil = Ok [entry]
       /\ entry !! "mountpoint" = Some (VStr "/home/user")
       /\ entry !! "used" = Some (VStr "400.0 B")
       /\ entry !! "free" = Some (VStr "600.0 B").
Proof.
  destruct (fallback_without_psutil windows_without_psutil) as (H1 & _ & _ & H4).
  - reflexivity.
  - split; [exact H1|].
    apply (H4 "/home/user" {| du_total := 1000; du_used := 400; du_free := 600 |});
      try reflexivity.
    cbn. lia.
Defined.

(** C9, as stated, fails: on a Linux host without [psutil] the disk
    probe returns nothing, not the space of the working directory's
    volume (whose usage the host would give). *)
Lemma no_disk_fallback_on_linux :
  HAS_PSUTIL linux_without_psutil = false
  /\ shutil_disk_usage linux_without_psutil "/home/user"
     = Ok {| du_total := 1000; du_used := 400; du_free := 600 |}
  /\ get_disk_info linux_without_psutil = Ok [].
Proof. repeat split. Qed.

(** ** The capture without [psutil] *)

(** C3: the capture-and-display flow does raise where [psutil] is
    unavailable: the fallback CPU result has the key [cores] but neither
    [physical_cores] nor [logical_cores], and [display_cpu_info] reads
    both. *)
Theorem monitor_once_without_psutil_raises (h : host) :
  HAS_PSUTIL h = false ->
  monitor_once h = Raise (KeyError "physical_cores").
Proof.
  intros H. unfold monitor_once.
  rewrite (get_cpu_info_without_psutil h H). unfold_res.
  unfold display_cpu_info, getitem. unfold_res.
  destruct (cpu_info_fallback_keys h) as (_ & -> & -> & _). reflexivity.
Qed.

Lemma monitor_once_without_psutil_raises_witness :
  monitor_once linux_without_psutil = Raise (KeyError "physical_cores").
Proof. apply monitor_once_without_psutil_raises. reflexivity. Defined.

(** * Further properties of the module *)

(** ** [format_bytes]: thresholds and exact byte counts *)






Lemma string_app_assoc (a b c : string) : (a ++ b) ++ c = a ++ (b ++ c).
Proof.
  induction a as [|x a IH]; [reflexivity|].
  change (String x ((a ++ b) ++ c) = String x (a ++ (b ++ c))). f_equal. exact IH.
Qed.

Lemma round_half_even_inject (z : Z) : round_half_even (inject_Z z) = z.
Proof.
  unfold round_half_even. rewrite Qfloor_Z.
  assert (E : (inject_Z z - inject_Z z ?= 1 # 2)%Q = Lt).
  { rewrite <- Qlt_alt. unfold Qlt, Qminus, Qplus, Qopp, inject_Z. cbn. lia. }
  rewrite E. reflexivity.
Qed.

Lemma round1_inject (z : Z) : round1 (inject_Z z) = (z * 10)%Z.
Proof.
  unfold round1. change (inject_Z z * 10)%Q with (inject_Z (z * 10)).
  apply round_half_even_inject.
Qed.

Lemma Qltb_inject (a b : Z) : Qltb (inject_Z a) (inject_Z b) = (a <? b)%Z.
Proof.
  unfold Qltb, Qcompare, inject_Z, Z.ltb. cbn. rewrite !Z.mul_1_r. reflexivity.
Qed.

(** X2: a byte count below 1024 is printed as it is, with [.0 B] after it. *)
Theorem format_bytes_small (n : Z) :
  (0 <= n < 1024)%Z -> format_bytes n = string_of_Z n ++ ".0 B".
Proof.
  intros Hn. unfold format_bytes, units. cbn [format_bytes_loop].
  change 1024%Q with (inject_Z 1024). rewrite Qltb_inject.
  destruct (Z.ltb_spec n 1024) as [_|C]; [|lia].
  unfold fmt1, tenths_to_string. rewrite round1_inject.
  change 0%Q with (inject_Z 0). rewrite Qltb_inject.
  destruct (Z.ltb_spec n 0) as [C|_]; [lia|].
  rewrite Z.abs_eq, Z.div_mul, Z.mod_mul by lia.
  rewrite !string_app_assoc. reflexivity.
Qed.

Lemma format_bytes_small_witness : format_bytes 512 = string_of_Z 512 ++ ".0 B".
Proof. apply format_bytes_small. lia. Defined.

(** ** Memory *)

Lemma has_point_app (a b : string) : has_point (a ++ b) = has_point a || has_point b.
Proof.
  induction a as [|c a IH]; [reflexivity|].
  change (has_point (String c (a ++ b)) = has_point (String c a) || has_point b).
  cbn [has_point]. rewrite IH, orb_assoc. reflexivity.
Qed.

Lemma format_bytes_has_point (n : Z) : has_point (format_bytes n) = true.
Proof.
  unfold format_bytes. destruct (format_bytes_loop units (inject_Z n)) as [v unit].
  unfold fmt1, tenths_to_string. rewrite !has_point_app.
  change (has_point ".") with true. rewrite !orb_true_r. reflexivity.
Qed.

Lemma format_bytes_not_0B (n : Z) : String.eqb (format_bytes n) "0 B" = false.
Proof.
  destruct (String.eqb_spec (format_bytes n) "0 B") as [E|]; [|reflexivity].
  pose proof (format_bytes_has_point n) as H. rewrite E in H. discriminate.
Qed.

Lemma get_memory_info_cases (h : host) :
  exists info : gmap string pyval,
    get_memory_info h = Ok info
    /\ (info = memory_info_fallback
        \/ (HAS_PSUTIL h = true /\ memory_info_psutil h = Ok info)).
Proof.
  unfold get_memory_info, return_or_pass. destruct (HAS_PSUTIL h); unfold_res.
  - destruct (memory_info_psutil h) as [info|]; eauto.
  - eauto.
Qed.

Lemma memory_info_psutil_keys (h : host) (info : gmap string pyval) :
  memory_info_psutil h = Ok info ->
  exists (memory : svmem) (swap : sswap),
    psutil_virtual_memory h = Ok memory
    /\ psutil_swap_memory h = Ok swap
    /\ info !! "total" = Some (VStr (format_bytes (vm_total memory)))
    /\ info !! "available" = Some (VStr (format_bytes (vm_available memory)))
    /\ info !! "used" = Some (VStr (format_bytes (vm_used memory)))
    /\ info !! "percent" = Some (VFloat (vm_percent memory))
    /\ info !! "swap_total" = Some (VStr (format_bytes (swap_total swap)))
    /\ info !! "swap_used" = Some (VStr (format_bytes (swap_used swap)))
    /\ info !! "swap_percent" = Some (VFloat (swap_percent swap)).
Proof.
  unfold memory_info_psutil. unfold_res.
  destruct (psutil_virtual_memory h) as [memory|]; [|discriminate].
  destruct (psutil_swap_memory h) as [swap|]; [|discriminate].
  intros [= <-]. exists memory, swap. repeat split; by simplify_map_eq.
Qed.

Lemma memory_info_fallback_keys :
  Forall (fun key => memory_info_fallback !! key = Some (VStr "Unknown"))
    ["total"; "available"; "used"; "percent";
     "swap_total"; "swap_used"; "swap_percent"].
Proof. unfold memory_info_fallback. repeat constructor; by simplify_map_eq. Qed.

Lemma display_memory_info_fallback :
  display_memory_info memory_info_fallback
  = Ok [Memory (VStr "Unknown") (VStr "Unknown") (VStr "Unknown");
        Available (VStr "Unknown");
        Swap (VStr "Unknown") (VStr "Unknown") (VStr "Unknown")].
Proof. vm_compute. reflexivity. Qed.

Lemma display_memory_info_psutil (h : host) (info : gmap string pyval) :
  memory_info_psutil h = Ok info ->
  exists (memory : svmem) (swap : sswap),
    psutil_virtual_memory h = Ok memory
    /\ psutil_swap_memory h = Ok swap
    /\ display_memory_info info
       = Ok [Memory (VStr (format_bytes (vm_used memory)))
               (VStr (format_bytes (vm_total memory))) (VFloat (vm_percent memory));
             Available (VStr (format_bytes (vm_available memory)));
             Swap (VStr (format_bytes (swap_used swap)))
               (VStr (format_bytes (swap_total swap))) (VFloat (swap_percent swap))].
Proof.
  intros H. apply memory_info_psutil_keys in H.
  destruct H as (memory & swap & Hm & Hs & K1 & K2 & K3 & K4 & K5 & K6 & K7).
  exists memory, swap. split; [exact Hm|]. split; [exact Hs|].
  unfold display_memory_info, getitem. unfold_res.
  rewrite K3, K1, K4, K2, K5. cbn [pyval_is_str].
  rewrite format_bytes_not_0B. cbn [negb]. rewrite K6, K7. reflexivity.
Qed.

(** X3: [get_memory_info] never raises and its result has the seven keys,
    with or without [psutil], and whatever the two [psutil] calls do: the
    figures of [psutil] formatted by [format_bytes], or ["Unknown"] for all
    seven. *)
Theorem memory_info_is_complete (h : host) :
  exists info : gmap string pyval,
    get_memory_info h = Ok info
    /\ Forall (fun key => is_Some (info !! key))
         ["total"; "available"; "used"; "percent";
          "swap_total"; "swap_used"; "swap_percent"]
    /\ (info = memory_info_fallback
        \/ exists (memory : svmem) (swap : sswap),
             HAS_PSUTIL h = true
             /\ psutil_virtual_memory h = Ok memory
             /\ psutil_swap_memory h = Ok swap
             /\ info !! "used" = Some (VStr (format_bytes (vm_used memory)))
             /\ info !! "swap_total" = Some (VStr (format_bytes (swap_total swap)))).
Proof.
  destruct (get_memory_info_cases h) as (info & G & [E|[Hp P]]); exists info.
  - subst info. split; [exact G|]. split; [|left; reflexivity].
    eapply List.Forall_impl; [|exact memory_info_fallback_keys].
    cbn. intros key ->. eauto.
  - apply memory_info_psutil_keys in P.
    destruct P as (memory & swap & Hm & Hs & K1 & K2 & K3 & K4 & K5 & K6 & K7).
    split; [exact G|]. split.
    + repeat constructor; eauto.
    + right. exists memory, swap. repeat split; assumption.
Qed.

(** X4: the swap line is printed for every result of [get_memory_info], also
    when there is no swap: the test of line 258 compares with ["0 B"],
    and [format_bytes] prints zero as ["0.0 B"]. So the display of the
    memory is always the same three lines, and never raises. *)
Theorem swap_line_is_always_printed (h : host) :
  exists (info : gmap string pyval) (used total percent available : pyval)
         (s_used s_total s_percent : pyval),
    get_memory_info h = Ok info
    /\ info !! "swap_total" = Some s_total
    /\ display_memory_info info
       = Ok [Memory used total percent; Available available;
             Swap s_used s_total s_percent].
Proof.
  destruct (get_memory_info_cases h) as (info & G & [E|[_ P]]); exists info.
  - subst info.
    do 7 eexists. split; [exact G|]. split; [|exact display_memory_info_fallback].
    unfold memory_info_fallback. by simplify_map_eq.
  - pose proof (memory_info_psutil_keys _ _ P) as (m & sw & Hm & Hs & K).
    destruct (display_memory_info_psutil _ _ P) as (m' & sw' & Hm' & Hs' & D).
    rewrite Hm in Hm'. rewrite Hs in Hs'. injection Hm' as <-. injection Hs' as <-.
    do 7 eexists. split; [exact G|]. split; [|exact D]. apply K.
Qed.

(** ** CPU *)

Lemma cpu_temperature_cases (h : host) (info : gmap string pyval) :
  exists info' : gmap string pyval,
    try_except (cpu_temperature h info) any_exception (λ _, Ok info) = Ok info'
    /\ forall key : string, key <> "temperature" -> info' !! key = info !! key.
Proof.
  unfold cpu_temperature. unfold_res.
  destruct (String.eqb (system h) "Windows"); [|eauto].
  destruct (psutil_sensors_temperatures h) as [[|[|temp group] groups]|]; eauto.
  eexists. split; [reflexivity|]. intros key Hkey.
  rewrite lookup_insert_ne by congruence. reflexivity.
Qed.

(** The frequency string of line 58. *)
Definition frequency_string (h : host) : string :=
  match cpu_frequency h with
  | Ok freq_str => freq_str
  | Raise _ => "Unknown"
  end.

(** Line 37 *)
Definition physical_or_logical (physical logical : option Z) : option Z :=
  if decide (physical = None \/ physical = Some 0%Z) then logical else physical.

Lemma cpu_info_psutil_keys (h : host) (u : unit) (usage : Q)
    (logical physical : option Z) :
  psutil_cpu_percent_percpu h = Ok u ->
  psutil_cpu_percent h = Ok usage ->
  psutil_cpu_count h = Ok logical ->
  psutil_cpu_count_physical h = Ok physical ->
  exists info : gmap string pyval,
    cpu_info_psutil h = Ok info
    /\ info !! "usage" = Some (VFloat usage)
    /\ info !! "physical_cores"
       = Some (of_optional_int (physical_or_logical physical logical))
    /\ info !! "logical_cores" = Some (of_optional_int logical)
    /\ info !! "frequency" = Some (VStr (frequency_string h)).
Proof.
  intros H1 H2 H3 H4. unfold cpu_info_psutil. rewrite H1, H2, H3, H4.
  unfold mbind, res_bind.
  replace (try_except (cpu_frequency h) any_exception (λ _, Ok "Unknown"))
    with (Ok (A := string) (frequency_string h))
    by (unfold frequency_string; unfold_res; destruct (cpu_frequency h); reflexivity).
  match goal with
  | |- context [cpu_temperature h ?i] => set (info := i)
  end.
  destruct (cpu_temperature_cases h info) as (info' & E & Hkeys).
  rewrite E. exists info'. split; [reflexivity|].
  rewrite !Hkeys by discriminate. unfold info.
  repeat split; try by simplify_map_eq.
  rewrite !lookup_insert_ne by discriminate. rewrite lookup_insert_eq.
  f_equal. f_equal. unfold physical_or_logical.
  destruct physical as [[|p|p]|]; case_decide as D; try reflexivity; exfalso;
    first [destruct D as [D|D]; discriminate | apply D; auto].
Qed.

Lemma display_cpu_info_ok (info : gmap string pyval) (usage physical logical frequency : pyval) :
  info !! "usage" = Some usage ->
  info !! "physical_cores" = Some physical ->
  info !! "logical_cores" = Some logical ->
  info !! "frequency" = Some frequency ->
  exists temperature : list line,
    display_cpu_info info
    = Ok ([CpuUsage usage physical logical] ++ temperature ++ [Frequency frequency])%list.
Proof.
  intros K1 K2 K3 K4. unfold display_cpu_info, getitem. unfold_res.
  rewrite K1, K2, K3, K4. destruct (info !! "temperature"); eexists; reflexivity.
Qed.

(** X5: with [psutil] present and the four calls for the usage and the core
    counts succeeding, [get_cpu_info] returns the usage, both core counts
    and a frequency, whatever the frequency and temperature probes do
    (a failing frequency probe gives ["Unknown"]); the physical core count
    is the logical one when [psutil] gives [None] or 0 for it; and
    [display_cpu_info] prints them without raising. *)
Theorem cpu_info_is_complete_with_psutil (h : host) (usage : Q)
    (logical physical : option Z) :
  HAS_PSUTIL h = true ->
  psutil_cpu_percent_percpu h = Ok tt ->
  psutil_cpu_percent h = Ok usage ->
  psutil_cpu_count h = Ok logical ->
  psutil_cpu_count_physical h = Ok physical ->
  exists (info : gmap string pyval) (frequency : string) (temperature : list line),
    get_cpu_info h = Ok info
    /\ info !! "usage" = Some (VFloat usage)
    /\ info !! "logical_cores" = Some (of_optional_int logical)
    /\ info !! "physical_cores"
       = Some (of_optional_int
                 (if decide (physical = None \/ physical = Some 0%Z)
                  then logical else physical))
    /\ info !! "frequency" = Some (VStr frequency)
    /\ (forall e : exn, cpu_frequency h = Raise e -> frequency = "Unknown")
    /\ display_cpu_info info
       = Ok ([CpuUsage (VFloat usage)
                (of_optional_int
                   (if decide (physical = None \/ physical = Some 0%Z)
                    then logical else physical))
                (of_optional_int logical)]
             ++ temperature ++ [Frequency (VStr frequency)])%list.
Proof.
  intros Hp H1 H2 H3 H4.
  destruct (cpu_info_psutil_keys h tt usage logical physical H1 H2 H3 H4)
    as (info & E & Ku & Kp & Kl & Kf).
  destruct (display_cpu_info_ok info _ _ _ _ Ku Kp Kl Kf) as [temperature D].
  exists info, (frequency_string h), temperature.
  split.
  { unfold get_cpu_info, return_or_pass. rewrite Hp, E. reflexivity. }
  do 4 (split; [assumption|]). split; [|exact D].
  intros e He. unfold frequency_string. rewrite He. reflexivity.
Qed.

Lemma cpu_info_is_complete_with_psutil_witness :
  exists (info : gmap string pyval) (frequency : string) (temperature : list line),
    get_cpu_info eight_core_host = Ok info
    /\ info !! "usage" = Some (VFloat (25 # 2))
    /\ info !! "logical_cores" = Some (VInt 8)
    /\ info !! "physical_cores" = Some (VInt 8)
    /\ info !! "frequency" = Some (VStr frequency)
    /\ (forall e : exn, cpu_frequency eight_core_host = Raise e -> frequency = "Unknown")
    /\ display_cpu_info info
       = Ok ([CpuUsage (VFloat (25 # 2)) (VInt 8) (VInt 8)]
             ++ temperature ++ [Frequency (VStr frequency)])%list.
Proof.
  apply (cpu_info_is_complete_with_psutil eight_core_host (25 # 2) (Some 8%Z) (Some 8%Z));
    reflexivity.
Defined.

(** ** Disk entries and their display *)

Lemma disk_entry_keys (dev mount : string) (usage : sdiskusage) (entry : gmap string pyval) :
  disk_entry dev mount usage = Ok entry ->
  du_total usage <> 0%Z
  /\ entry !! "device" = Some (VStr dev)
  /\ entry !! "mountpoint" = Some (VStr mount)
  /\ entry !! "used" = Some (VStr (format_bytes (du_used usage)))
  /\ entry !! "total" = Some (VStr (format_bytes (du_total usage)))
  /\ entry !! "free" = Some (VStr (format_bytes (du_free usage)))
  /\ entry !! "percent"
     = Some (VFloat (inject_Z (du_used usage) / inject_Z (du_total usage) * 100)).
Proof.
  unfold disk_entry, truediv. unfold_res.
  destruct (Qeq_bool (inject_Z (du_total usage)) 0) eqn:E; [discriminate|].
  intros [= <-]. split; [|repeat split; by simplify_map_eq].
  intros Z0. rewrite Z0 in E. discriminate.
Qed.

(** An entry that [disk_entry] built. *)
Definition built_entry (entry : gmap string pyval) : Prop :=
  exists (dev mount : string) (usage : sdiskusage), disk_entry dev mount usage = Ok entry.

Lemma probed_built (h : host) (partitions : list sdiskpart) :
  Forall built_entry (omap (probed h) partitions).
Proof.
  induction partitions as [|partition partitions IH]; cbn; [constructor|].
  unfold probed at 1, probe_partition. unfold_res.
  destruct (psutil_disk_usage h (mountpoint partition)) as [usage|]; [|exact IH].
  destruct (disk_entry (device partition) (mountpoint partition) usage) as [entry|] eqn:E;
    [|exact IH].
  constructor; [|exact IH]. exists (device partition), (mountpoint partition), usage. exact E.
Qed.

Lemma get_disk_info_built (h : host) (disk_info : list (gmap string pyval)) :
  get_disk_info h = Ok disk_info -> Forall built_entry disk_info.
Proof.
  unfold get_disk_info.
  destruct (disk_info_psutil h) as [|entry entries] eqn:P.
  - unfold disk_info_fallback. unfold_res.
    destruct (os_path_abspath_dot h) as [current|]; [|intros [= <-]; constructor].
    destruct (String.eqb (system h) "Windows"); [|intros [= <-]; constructor].
    destruct (shutil_disk_usage h current) as [usage|]; [|intros [= <-]; constructor].
    destruct (disk_entry "C:" current usage) as [entry|] eqn:E; intros [= <-];
      repeat constructor.
    exists "C:", current, usage. exact E.
  - intros [= <-]. rewrite <- P. unfold disk_info_psutil.
    destruct (HAS_PSUTIL h); [|constructor].
    destruct (psutil_disk_partitions h) as [partitions|]; [|constructor].
    rewrite disk_loop_entries. apply probed_built.
Qed.

Lemma display_disks_built (disk_info : list (gmap string pyval)) :
  Forall built_entry disk_info ->
  exists out : list line,
    display_disks disk_info = Ok out /\ length out = (2 * length disk_info)%nat.
Proof.
  induction 1 as [|entry entries (dev & mount & usage & E) _ (out & D & L)].
  - exists []. split; reflexivity.
  - apply disk_entry_keys in E. destruct E as (_ & K1 & K2 & K3 & K4 & _ & K6).
    cbn [display_disks]. unfold getitem. unfold_res.
    rewrite K1, K2, K3, K4, K6, D. cbn [format_1f].
    eexists. split; [reflexivity|]. cbn [length app]. lia.
Qed.


(** X7: [display_disk_info] never raises on what [get_disk_info] returns: it
    prints the heading and two lines for each volume. *)
Theorem disk_display_never_raises (h : host) :
  exists (disk_info : list (gmap string pyval)) (out : list line),
    get_disk_info h = Ok disk_info
    /\ display_disk_info disk_info = Ok out
    /\ length out = (1 + 2 * length disk_info)%nat.
Proof.
  destruct (get_disk_info_returns h) as [disk_info G].
  destruct (display_disks_built disk_info (get_disk_info_built h disk_info G))
    as (out & D & L).
  exists disk_info, (DiskUsage :: out). split; [exact G|].
  unfold display_disk_info. rewrite D. split; [reflexivity|].
  cbn [length]. lia.
Qed.

(** ** When the capture succeeds *)

Lemma cpu_probes_ok_display (h : host) :
  cpu_probes_ok h = true ->
  exists (info : gmap string pyval) (out : list line),
    get_cpu_info h = Ok info /\ display_cpu_info info = Ok out.
Proof.
  unfold cpu_probes_ok, is_ok. intros H.
  destruct (HAS_PSUTIL h) eqn:Hp; [|discriminate].
  destruct (psutil_cpu_percent_percpu h) as [u|] eqn:H1; [|discriminate].
  destruct (psutil_cpu_percent h) as [usage|] eqn:H2; [|discriminate].
  destruct (psutil_cpu_count h) as [logical|] eqn:H3; [|discriminate].
  destruct (psutil_cpu_count_physical h) as [physical|] eqn:H4; [|discriminate].
  destruct (cpu_info_psutil_keys h u usage logical physical H1 H2 H3 H4)
    as (info & E & Ku & Kp & Kl & Kf).
  destruct (display_cpu_info_ok info _ _ _ _ Ku Kp Kl Kf) as [temperature D].
  exists info. eexists. split; [|exact D].
  unfold get_cpu_info, return_or_pass. rewrite Hp, E. reflexivity.
Qed.

Lemma cpu_probes_fail_fallback (h : host) :
  cpu_probes_ok h = false -> get_cpu_info h = Ok (cpu_info_fallback h).
Proof.
  unfold cpu_probes_ok, is_ok, get_cpu_info, return_or_pass, cpu_info_psutil. intros H.
  destruct (HAS_PSUTIL h); [|reflexivity]. unfold_res.
  destruct (psutil_cpu_percent_percpu h); [|reflexivity].
  destruct (psutil_cpu_percent h); [|reflexivity].
  destruct (psutil_cpu_count h); [|reflexivity].
  destruct (psutil_cpu_count_physical h); [discriminate|reflexivity].
Qed.

Lemma memory_display_ok (h : host) :
  exists (info : gmap string pyval) (out : list line),
    get_memory_info h = Ok info /\ display_memory_info info = Ok out.
Proof.
  destruct (get_memory_info_cases h) as (info & G & [E|[_ P]]); exists info.
  - subst info. eexists. split; [exact G|exact display_memory_info_fallback].
  - destruct (display_memory_info_psutil _ _ P) as (m & sw & _ & _ & D).
    eexists. split; [exact G|exact D].
Qed.

Lemma monitor_once_ok (h : host) :
  cpu_probes_ok h = true -> exists out : list line, monitor_once h = Ok out.
Proof.
  intros H. unfold monitor_once.
  destruct (cpu_probes_ok_display h H) as (cpu_info & cpu & -> & D1).
  destruct (memory_display_ok h) as (memory_info & memory & -> & D2).
  destruct (get_disk_info_returns h) as [disk_info G].
  destruct (display_disks_built disk_info (get_disk_info_built h disk_info G))
    as (disk & D3 & _).
  destruct (get_top_processes_returns h 10) as [processes T].
  unfold_res. rewrite D1, D2, G. unfold display_disk_info. unfold_res.
  rewrite D3, T. eexists. reflexivity.
Qed.

Lemma monitor_once_key_error (h : host) :
  cpu_probes_ok h = false -> monitor_once h = Raise (KeyError "physical_cores").
Proof.
  intros H. unfold monitor_once.
  rewrite (cpu_probes_fail_fallback h H). unfold_res.
  unfold display_cpu_info, getitem. unfold_res.
  destruct (cpu_info_fallback_keys h) as (_ & -> & -> & _). reflexivity.
Qed.

(** X8: [monitor_once] completes exactly when [psutil] is present and its
    four calls for the CPU usage and the core counts succeed; on every
    other host it raises [KeyError('physical_cores')]. No failure of the
    frequency, temperature, memory, disk or process probes makes it
    raise. *)
Theorem monitor_once_completes_iff (h : host) :
  ((exists out : list line, monitor_once h = Ok out) <-> cpu_probes_ok h = true)
  /\ (monitor_once h = Raise (KeyError "physical_cores") <-> cpu_probes_ok h = false).
Proof.
  destruct (cpu_probes_ok h) eqn:E.
  - destruct (monitor_once_ok h E) as [out M]. rewrite M.
    split; split; try discriminate; eauto.
  - rewrite (monitor_once_key_error h E).
    split; split; try reflexivity; try discriminate.
    intros [out M]. discriminate.
Qed.

(** ** The ranking: size, content and what empties it *)

Lemma slice_to_length {A : Type} (l : list A) (limit : Z) :
  length (slice_to l limit)
  = if (0 <=? limit)%Z then Nat.min (Z.to_nat limit) (length l)
    else (length l - Z.to_nat (- limit))%nat.
Proof.
  unfold slice_to. destruct (0 <=? limit)%Z; rewrite length_firstn; lia.
Qed.

(** X9: when the collection succeeds, [get_top_processes] returns
    [min(limit, n)] entries of the [n] collected ones for a [limit] that
    is not negative, none for [limit = 0]; a negative [limit] is not
    refused: the last [-limit] entries of the ranking are dropped. *)
Theorem ranking_length (h : host) (limit : Z) (all out : list ProcessInfo) :
  HAS_PSUTIL h = true ->
  collect_processes h = Ok all ->
  get_top_processes h limit = Ok out ->
  length out
  = if (0 <=? limit)%Z then Nat.min (Z.to_nat limit) (length all)
    else (length all - Z.to_nat (- limit))%nat.
Proof.
  intros Hp C. unfold get_top_processes. rewrite Hp, C. cbn [negb].
  unfold_res. intros [= <-].
  rewrite slice_to_length, (Permutation_length (sort_perm all)). reflexivity.
Qed.

Lemma ranking_length_witness :
  length [{| name := "alpha"; cpu_percent := 100; memory_mb := 10; pid := 5 |}]
  = (length [{| name := "alpha"; cpu_percent := 100; memory_mb := 10; pid := 5 |};
             {| name := "beta"; cpu_percent := 100; memory_mb := 10; pid := 3 |}]
     - 1)%nat.
Proof.
  exact (ranking_length tie_host (-1)
           [{| name := "alpha"; cpu_percent := 100; memory_mb := 10; pid := 5 |};
            {| name := "beta"; cpu_percent := 100; memory_mb := 10; pid := 3 |}]
           [{| name := "alpha"; cpu_percent := 100; memory_mb := 10; pid := 5 |}]
           eq_refl eq_refl eq_refl).
Defined.

Lemma StronglySorted_app_cross {A : Type} (R : A -> A -> Prop) (l1 l2 : list A) :
  StronglySorted R (l1 ++ l2) ->
  forall x y : A, In x l1 -> In y l2 -> R x y.
Proof.
  induction l1 as [|a l1 IH]; cbn; intros H x y Hx Hy; [destruct Hx|].
  inversion H as [|? ? Hs Hf]; subst. destruct Hx as [<-|Hx].
  - rewrite List.Forall_forall in Hf. apply Hf. apply in_or_app. right. exact Hy.
  - apply (IH Hs x y Hx Hy).
Qed.

(** X10: the entries that [get_top_processes] returns are entries of the
    collection, each as often as it was collected, and those it leaves
    out have a CPU percent no higher than any of those it returns. *)
Theorem ranking_keeps_the_highest (h : host) (limit : Z) (all out : list ProcessInfo) :
  HAS_PSUTIL h = true ->
  collect_processes h = Ok all ->
  get_top_processes h limit = Ok out ->
  exists dropped : list ProcessInfo,
    Permutation (out ++ dropped) all
    /\ forall kept left_out : ProcessInfo,
         In kept out -> In left_out dropped ->
         (cpu_percent left_out <= cpu_percent kept)%Z.
Proof.
  intros Hp C. unfold get_top_processes. rewrite Hp, C. cbn [negb].
  unfold_res. intros [= <-].
  destruct (slice_to_prefix (sort_by_cpu_desc all) limit) as [dropped E].
  exists dropped. split.
  - rewrite <- E. apply sort_perm.
  - intros kept left_out Hk Hl.
    apply (StronglySorted_app_cross cpu_desc
             (slice_to (sort_by_cpu_desc all) limit) dropped); [|exact Hk|exact Hl].
    rewrite <- E. apply sort_sorted.
Qed.

Lemma ranking_keeps_the_highest_witness :
  exists dropped : list ProcessInfo,
    Permutation
      ([{| name := "shell"; cpu_percent := 20; memory_mb := 20; pid := 7 |}] ++ dropped)
      [{| name := "init"; cpu_percent := 10; memory_mb := 10; pid := 1 |};
       {| name := "shell"; cpu_percent := 20; memory_mb := 20; pid := 7 |}]
    /\ forall kept left_out : ProcessInfo,
         In kept [{| name := "shell"; cpu_percent := 20; memory_mb := 20; pid := 7 |}] ->
         In left_out dropped ->
         (cpu_percent left_out <= cpu_percent kept)%Z.
Proof.
  apply (ranking_keeps_the_highest churn_host 1); vm_compute; reflexivity.
Defined.

Lemma sort_sorted_id (l : list ProcessInfo) :
  StronglySorted cpu_desc l -> sort_by_cpu_desc l = l.
Proof.
  induction 1 as [|x l Hl IH Hx]; [reflexivity|].
  unfold sort_by_cpu_desc. cbn [fold_right]. fold (sort_by_cpu_desc l). rewrite IH.
  destruct l as [|y l]; [reflexivity|]. cbn [sort_insert].
  inversion Hx as [|? ? Hxy _]; subst. unfold cpu_desc in Hxy.
  destruct (Z.leb_spec (cpu_percent y) (cpu_percent x)); [reflexivity|lia].
Qed.

Lemma get_top_processes_sorted (h : host) (limit : Z) (out : list ProcessInfo) :
  get_top_processes h limit = Ok out -> StronglySorted cpu_desc out.
Proof.
  intros H. destruct (get_top_processes_inv _ _ _ H) as [->|(procs & _ & _ & _ & ->)].
  - constructor.
  - destruct (slice_to_prefix (sort_by_cpu_desc (omap (entry_of h) procs)) limit)
      as [dropped E].
    apply (StronglySorted_prefix _ _ dropped). rewrite <- E. apply sort_sorted.
Qed.

(** X11: the second sort, in [display_processes], changes nothing in a list
    that [get_top_processes] returned: the rows shown are its first ten
    entries, in its order, numbered from 1, followed by the totals over the
    whole list. *)
Theorem display_keeps_the_ranking (h : host) (limit : Z) (out : list ProcessInfo) :
  get_top_processes h limit = Ok out ->
  out <> [] ->
  sort_by_cpu_desc out = out
  /\ display_processes out
     = ([ProcessColumns; Rule] ++ process_rows 1 (firstn 10 out)
        ++ [Rule; Total (sum_tenths cpu_percent out) (sum_tenths memory_mb out)])%list.
Proof.
  intros H Hne.
  pose proof (sort_sorted_id out (get_top_processes_sorted _ _ _ H)) as E.
  split; [exact E|]. unfold display_processes. rewrite E.
  change (slice_to out 10) with (firstn 10 out).
  destruct out as [|x out]; [contradiction|reflexivity].
Qed.

Lemma display_keeps_the_ranking_witness :
  sort_by_cpu_desc
    [{| name := "worker"; cpu_percent := 125; memory_mb := 500; pid := 4242 |}]
  = [{| name := "worker"; cpu_percent := 125; memory_mb := 500; pid := 4242 |}].
Proof.
  apply (display_keeps_the_ranking eight_core_host 10); [vm_compute; reflexivity|discriminate].
Defined.

(** X12: totals are reported exactly when the list to display is not empty;
    for the empty list the only line is the one saying that no active
    process was found. *)
Theorem totals_iff_nonempty (processes : list ProcessInfo) :
  (reported_totals (display_processes processes) = None <-> processes = [])
  /\ (display_processes processes = [NoActiveProcesses] <-> processes = []).
Proof.
  destruct processes as [|x processes].
  - split; split; reflexivity.
  - pose proof (display_processes_totals (x :: processes)) as T.
    split; split; try discriminate.
    + intros E. rewrite T in E by discriminate. discriminate.
    + intros E. rewrite E in T. cbn in T. specialize (T ltac:(discriminate)).
      discriminate.
Qed.

Lemma second_pass_fatal (h : host) (procs : list (res proc_info)) :
  forall acc : list ProcessInfo,
    existsb (entry_is_fatal h) procs = true ->
    exists e : exn, second_pass h procs acc = Raise e.
Proof.
  induction procs as [|proc procs IH]; intros acc; cbn [existsb second_pass];
    [discriminate|].
  unfold entry_is_fatal at 1. unfold_res.
  destruct (match proc with Ok a => process_entry h a | Raise e => Raise e end)
    as [entry|e].
  - cbn [orb]. intros H. destruct entry; apply IH; exact H.
  - destruct (psutil_process_error e); cbn [negb orb].
    + intros H. apply IH. exact H.
    + intros _. eauto.
Qed.

Lemma entry_is_fatal_unreadable (h : host) (info : proc_info) :
  info_name info = None
  \/ info_memory_rss info = None
  \/ psutil_cpu_count h = Ok None
  \/ psutil_cpu_count h = Ok (Some 0%Z)
  \/ (info_cpu_percent info = None /\ is_ok (psutil_cpu_count h) = true) ->
  entry_is_fatal h (Ok info) = true.
Proof.
  unfold entry_is_fatal, process_entry, attribute, truediv, is_ok. unfold_res.
  intros H.
  destruct (info_name info) as [raw_name|]; [|reflexivity].
  destruct (info_memory_rss info) as [rss|]; [|reflexivity].
  destruct (psutil_cpu_count h) as [[count|]|e]; cbn -[str_in round1].
  - destruct (info_cpu_percent info) as [raw|]; [|reflexivity].
    destruct H as [H|[H|[H|[H|[H _]]]]]; try discriminate.
    injection H as ->. reflexivity.
  - destruct (info_cpu_percent info); reflexivity.
  - destruct H as [H|[H|[H|[H|[_ H]]]]]; discriminate.
Qed.

(** X13: one process whose attributes cannot be read empties the ranking: when
    the second loop meets a process whose name, memory or CPU percent is
    [None] (what [psutil] puts for an attribute it may not read), or when
    [psutil.cpu_count()] is [None] or 0, the exception is not one of the
    three that skip a process, and [get_top_processes] returns the empty
    list, whatever the other processes are. *)
Theorem unreadable_process_empties_ranking (h : host) (limit : Z)
    (procs : list (res proc_info)) (info : proc_info) :
  process_iter_second h = Ok procs ->
  In (Ok info) procs ->
  info_name info = None
  \/ info_memory_rss info = None
  \/ psutil_cpu_count h = Ok None
  \/ psutil_cpu_count h = Ok (Some 0%Z)
  \/ (info_cpu_percent info = None /\ is_ok (psutil_cpu_count h) = true) ->
  get_top_processes h limit = Ok [].
Proof.
  intros P Hin Hbad. unfold get_top_processes.
  destruct (HAS_PSUTIL h); cbn [negb]; [|reflexivity].
  assert (F : existsb (entry_is_fatal h) procs = true).
  { apply existsb_exists. exists (Ok info). split; [exact Hin|].
    apply entry_is_fatal_unreadable. exact Hbad. }
  unfold collect_processes. unfold_res.
  destruct (process_iter_first h) as [first|]; [|reflexivity].
  destruct (first_pass first); [|reflexivity].
  rewrite P. destruct (second_pass_fatal h procs [] F) as [e ->]. reflexivity.
Qed.

Lemma unreadable_process_empties_ranking_witness :
  get_top_processes unreadable_host 10 = Ok [].
Proof.
  apply (unreadable_process_empties_ranking unreadable_host 10
           [proc 1 "init" 2 1048576;
            Ok {| info_pid := 9; info_name := None;
                  info_cpu_percent := None; info_memory_rss := None |}]
           {| info_pid := 9; info_name := None;
              info_cpu_percent := None; info_memory_rss := None |}).
  - reflexivity.
  - right. left. reflexivity.
  - left. reflexivity.
Defined.

(** ** Names *)

Lemma string_length_app (a b : string) :
  String.length (a ++ b) = (String.length a + String.length b)%nat.
Proof.
  induction a as [|c a IH]; [reflexivity|].
  change (String c a ++ b) with (String c (a ++ b)). cbn [String.length].
  rewrite IH. reflexivity.
Qed.


Lemma substring_0_app (s t : string) : substring 0 (String.length s) (s ++ t) = s.
Proof.
  induction s as [|c s IH].
  - cbn [String.length]. destruct t; reflexivity.
  - change (String c s ++ t) with (String c (s ++ t)).
    cbn [String.length substring]. rewrite IH. reflexivity.
Qed.

Lemma substring_skip_app (s t : string) (k : nat) :
  substring (String.length s) k (s ++ t) = substring 0 k t.
Proof.
  induction s as [|c s IH]; [reflexivity|].
  change (String c s ++ t) with (String c (s ++ t)).
  cbn [String.length substring]. exact IH.
Qed.

Lemma substring_split (m : nat) :
  forall (s : string) (k : nat),
    (m + k = String.length s)%nat -> substring 0 m s ++ substring m k s = s.
Proof.
  induction m as [|m IH]; intros s k H.
  - cbn [Nat.add] in H. subst k.
    replace (substring 0 0 s) with "" by (destruct s; reflexivity).
    change ("" ++ substring 0 (String.length s) s) with (substring 0 (String.length s) s).
    clear. induction s as [|c s IH]; [reflexivity|].
    cbn [String.length substring]. rewrite IH. reflexivity.
  - destruct s as [|c s]; cbn [String.length] in H; [lia|].
    cbn [substring].
    change (String c (substring 0 m s) ++ substring m k s)
      with (String c (substring 0 m s ++ substring m k s)).
    rewrite IH by lia. reflexivity.
Qed.

(** X14: the display name is the process name without one final [.exe]: a
    name that ends in [.exe] (in lower case) loses exactly these four
    characters, and every other name is kept as it is. *)
Theorem normalized_name_strips_exe :
  (forall s : string, normalized_name (s ++ ".exe") = s)
  /\ (forall s : string,
        (endswith s ".exe" = true /\ s = normalized_name s ++ ".exe")
        \/ (endswith s ".exe" = false /\ normalized_name s = s)).
Proof.
  split.
  - intros s. unfold normalized_name, endswith, drop_last.
    rewrite string_length_app. cbn [String.length].
    replace (String.length s + 4 - 4)%nat with (String.length s) by lia.
    rewrite substring_skip_app, substring_0_app.
    destruct (Nat.leb_spec 4 (String.length s + 4)); [reflexivity|lia].
  - intros s. unfold normalized_name.
    destruct (endswith s ".exe") eqn:E; [left|right; split; reflexivity].
    split; [reflexivity|]. unfold endswith, drop_last in *.
    cbn [String.length] in E. apply andb_prop in E. destruct E as [L E].
    apply Nat.leb_le in L. apply String.eqb_eq in E.
    rewrite <- E. symmetry. apply substring_split. lia.
Qed.


(** ** The refresh loop and the command line *)




